(** * centrifuge/handlers.py: the API command pipeline and the SockJS
      connection lifecycle

    A shallow embedding of [ApiHandler.post] and of the three callbacks of
    [SockjsConnection], followed by the properties the design document
    states about them. *)

From Stdlib Require Import ZArith List String Bool.
From stdpp Require Import base strings gmap.
Import ListNotations.

Local Open Scope Z_scope.
Local Open Scope string_scope.
Local Open Scope list_scope.

#[local] Set Warnings "-register-all".

(** ** Python values *)

(** The values that flow through the handlers: what [json_decode] produces,
    and the strings, dictionaries and [None] the collaborators hand back.
    Numbers are restricted to integers; a dictionary is an association list
    read at its first matching key. *)
Inductive value : Type :=
| VNone
| VBool (b : bool)
| VInt (n : Z)
| VStr (s : string)
| VList (items : list value)
| VDict (items : list (string * value)).

(** Python truth testing, as used by [if x:] and [if not x:]. *)
Definition truthy (v : value) : bool :=
  match v with
  | VNone => false
  | VBool b => b
  | VInt n => negb (Z.eqb n 0)
  | VStr s => negb (String.eqb s "")
  | VList items => negb (match items with [] => true | _ => false end)
  | VDict items => negb (match items with [] => true | _ => false end)
  end.

(** Truth testing of a byte string such as [request.body]. *)
Definition nonempty (s : string) : bool := negb (String.eqb s "").

(** Whether a value may be used as a dictionary key ([hash(v)] succeeds). *)
Definition hashable (v : value) : bool :=
  match v with
  | VList _ | VDict _ => false
  | _ => true
  end.

Fixpoint assoc (key : string) (items : list (string * value)) : option value :=
  match items with
  | [] => None
  | (k, v) :: rest => if String.eqb k key then Some v else assoc key rest
  end.

(** ** Exceptions, calls that leave the module, and the handler monad *)

Module core.
(** Modelled from the spec: the [Response] class is imported from
    [centrifuge.core], which is not part of the sources at hand.  The
    design document gives it four optional fields [uid], [method], [body]
    and [error]; a field that is not populated holds [None], which is how
    a freshly constructed [Response()] starts. *)
Record Response : Type := {
  uid : value;
  method : value;
  body : value;
  error : value
}.

Definition new : Response :=
  {| uid := VNone; method := VNone; body := VNone; error := VNone |}.

(** Attribute assignment, [response.field = v]. *)
Definition set_uid (r : Response) (v : value) : Response :=
  {| uid := v; method := method r; body := body r; error := error r |}.
Definition set_method (r : Response) (v : value) : Response :=
  {| uid := uid r; method := v; body := body r; error := error r |}.
Definition set_body (r : Response) (v : value) : Response :=
  {| uid := uid r; method := method r; body := v; error := error r |}.
Definition set_error (r : Response) (v : value) : Response :=
  {| uid := uid r; method := method r; body := body r; error := v |}.

(** A field is populated when it holds anything but [None]. *)
Definition populated (v : value) : bool :=
  match v with VNone => false | _ => true end.
End core.

Record HTTPServerRequest : Type := {
  body : string;      (* the raw, still encoded payload *)
  arguments : value   (* whatever else [auth.extract_auth_info] reads *)
}.

Inductive Exn : Type :=
| HTTPError (status_code : Z) (log_message : value)
| AttributeError
| TypeError
| KeyError.

(** Every call [post] makes to code outside [handlers.py], in order. *)
Inductive Call : Type :=
| ExtractAuthInfo (request : HTTPServerRequest)
| GetProjectById (project_id : string)
| CheckAuth (project sign : value) (encoded_data : string)
| DecodeData (encoded_data : string)
| NewResponse
| Validate (instance schema : value)
| ProcessCall (project method params : value).

(** A handler run: the calls it made, and either the exception that ended
    it or its result. *)
Definition M (A : Type) : Type := list Call * (Exn + A).

Definition ret {A} (a : A) : M A := ([], inr a).

Definition raise {A} (e : Exn) : M A := ([], inl e).

(** [logged log m]: the run [m], the calls of [log] having been made first. *)
Definition logged {A} (log : list Call) (m : M A) : M A :=
  (log ++ fst m, snd m).

Definition bind {A B} (m : M A) (k : A -> M B) : M B :=
  match m with
  | (log, inl e) => (log, inl e)
  | (log, inr a) => logged log (k a)
  end.

(** [invoke c r]: make the outside call [c], which answers [r]. *)
Definition invoke {A} (c : Call) (r : A) : M A := ([c], inr r).

Declare Scope handler_scope.
Delimit Scope handler_scope with handler.
Notation "'let*' x ':=' m 'in' k" := (bind m (fun x => k))
  (at level 10, x name, m at level 100, k at level 200) : handler_scope.
Notation "'let*' ' pat ':=' m 'in' k" :=
  (bind m (fun x => match x with pat => k end))
  (at level 10, pat pattern, m at level 100, k at level 200) : handler_scope.
(** [if b: raise e], then the rest of the body. *)
Notation "'when' b 'raising' e 'otherwise' k" := (if b then raise e else k)
  (at level 10, b at level 100, e at level 100, k at level 200) : handler_scope.

(** [d.get(key)] with its default of [None]; anything but a dictionary has
    no [get]. *)
Definition get (d : value) (key : string) : M value :=
  match d with
  | VDict items => ret (default VNone (assoc key items))
  | _ => raise AttributeError
  end.

(** [key in registry] for a registry keyed by strings. *)
Definition contains (registry : gmap string value) (key : value) : M bool :=
  match key with
  | VStr s => ret (bool_decide (is_Some (registry !! s)))
  | VList _ | VDict _ => raise TypeError
  | _ => ret false
  end.

(** [registry[key]]. *)
Definition getitem (registry : gmap string value) (key : value) : M value :=
  match key with
  | VStr s => match registry !! s with Some v => ret v | None => raise KeyError end
  | VList _ | VDict _ => raise TypeError
  | _ => raise KeyError
  end.

(** ** SockjsConnection *)

Module SockjsConnection.

(** The transport session handed to the connection by sockjs; a session
    object always tests true, an absent one is [None]. *)
Record Session : Type := { transport_name : string }.

(** Modelled from the spec: the [Client] class (the per-connection Agent)
    is imported from [centrifuge.client], which is not part of the
    sources at hand.  Here an agent is the object built from the [info]
    it was constructed with; what it does with messages is its own
    business and shows up as an effect only. *)
Record Client : Type := { info : value }.

(** The attributes of the connection object.  [client = None] stands for
    an attribute that is not set: never assigned, or deleted. *)
Record Connection : Type := {
  session : option Session;
  client : option Client
}.

Definition set_client (self : Connection) (c : option Client) : Connection :=
  {| session := session self; client := c |}.

(** What a callback asks of the objects around it. *)
Inductive Effect : Type :=
| ClientCreated (c : Client)                     (* Client(self, info) *)
| StartHeartbeat                                 (* self.session.start_heartbeat() *)
| Close                                          (* self.close(), inherited *)
| MessageReceived (c : Client) (message : string) (* client.message_received(message) *)
| ClientClose (c : Client).                      (* client.close() *)

(** One callback run: its effects in order, the connection it leaves
    behind, and the exception that ended it, if any. *)
Record Run : Type := {
  effects : list Effect;
  after : Connection;
  raised : option Exn
}.

(** [on_open].  The [close] it calls is the one inherited from sockjs's
    [SockJSConnection], which hands over to [self.session.close()]: called
    on a connection without a session, it fails on that attribute. *)
Definition on_open (self : Connection) (info : value) : Run :=
  let c := {| info := info |} in
  let self := set_client self (Some c) in
  match session self with
  | Some s =>
      if negb (String.eqb (transport_name s) "rawwebsocket") then
        {| effects := [ClientCreated c; StartHeartbeat]; after := self; raised := None |}
      else
        {| effects := [ClientCreated c]; after := self; raised := None |}
  | None =>
      {| effects := [ClientCreated c; Close]; after := self;
         raised := Some AttributeError |}
  end.

Definition on_message (self : Connection) (message : string) : Run :=
  match client self with
  | Some c =>
      {| effects := [MessageReceived c message]; after := self; raised := None |}
  | None =>
      {| effects := []; after := self; raised := Some AttributeError |}
  end.

Definition on_close (self : Connection) : Run :=
  match client self with
  | Some c =>
      {| effects := [ClientClose c]; after := set_client self None; raised := None |}
  | None =>
      {| effects := []; after := self; raised := Some AttributeError |}
  end.

End SockjsConnection.

(** ** ApiHandler *)

(** Everything [post] reaches outside [handlers.py].  Each collaborator
    answers with the pair [(value, error)] that the source unpacks;
    [validate] answers [None] when the instance conforms and [Some msg]
    when it raises a [ValidationError] whose [str] is [msg].  They read
    their arguments and leave the request untouched. *)
Record Environment : Type := {
  (* auth *)
  extract_auth_info : HTTPServerRequest -> value * value;
  decode_data : string -> value;
  (* self.application and self.application.structure *)
  get_project_by_id : string -> value * value;
  check_auth : value -> value -> string -> value * value;
  process_call : value -> value -> value -> value * value;
  (* jsonschema and schema *)
  validate : value -> value -> option string;
  req_schema : value;
  admin_params_schema : gmap string value;
  (* the builtin *)
  str : value -> string
}.

Module ApiHandler.
Section Post.

Variable env : Environment.

Local Open Scope handler_scope.

(** [ApiHandler.post]; the result is the [Response] whose message is
    handed to [json_response]. *)
Definition post (request : HTTPServerRequest) (project_id : string)
  : M core.Response :=
  when negb (nonempty (body request))
    raising HTTPError 400 (VStr "empty request") otherwise

  let* '(auth_info, error) :=
    invoke (ExtractAuthInfo request) (extract_auth_info env request) in
  when truthy error
    raising HTTPError 401 error otherwise

  let* sign := get auth_info "sign" in
  when negb (truthy sign)
    raising HTTPError 401 (VStr "unauthorized") otherwise

  let* '(project, error) :=
    invoke (GetProjectById project_id) (get_project_by_id env project_id) in
  when truthy error
    raising HTTPError 500 (VStr (str env error)) otherwise
  when negb (truthy project)
    raising HTTPError 404 (VStr "project not found") otherwise

  let encoded_data := body request in
  when negb (nonempty encoded_data)
    raising HTTPError 400 (VStr "no request body") otherwise

  let* '(result, error) :=
    invoke (CheckAuth project sign encoded_data)
           (check_auth env project sign encoded_data) in
  when truthy error
    raising HTTPError 500 (VStr (str env error)) otherwise
  when negb (truthy result)
    raising HTTPError 401 (VStr "unauthorized") otherwise

  let* data :=
    invoke (DecodeData encoded_data) (decode_data env encoded_data) in
  when negb (truthy data)
    raising HTTPError 400 (VStr "malformed data") otherwise

  let* response := invoke NewResponse core.new in

  let* outcome :=
    invoke (Validate data (req_schema env)) (validate env data (req_schema env)) in
  match outcome with
  | Some e =>
      ret (core.set_error response (VStr e))
  | None =>
      let* req_id := get data "uid" in
      let* method := get data "method" in
      let* params := get data "params" in

      let response := core.set_uid response req_id in
      let response := core.set_method response method in

      let* known := contains (admin_params_schema env) method in
      if negb known then
        ret (core.set_error response (VStr "method not found"))
      else
        let* schema := getitem (admin_params_schema env) method in
        let* outcome :=
          invoke (Validate params schema) (validate env params schema) in
        match outcome with
        | Some e =>
            ret (core.set_error response (VStr e))
        | None =>
            let* '(result, error) :=
              invoke (ProcessCall project method params)
                     (process_call env project method params) in
            let response := core.set_body response result in
            let response := core.set_error response error in
            ret response
        end
  end.

(** [ApiHandler.post] once more, with the request as the shared object
    it is.  [self.request] is handed to [auth.extract_auth_info] and the
    coroutine is suspended on the project lookup before the body is read
    a second time; [reread request] is the request object as that second
    read finds it.  From there on the source works on its local
    [encoded_data]. *)
Definition post_shared (reread : HTTPServerRequest -> HTTPServerRequest)
    (request : HTTPServerRequest) (project_id : string)
  : M core.Response :=
  when negb (nonempty (body request))
    raising HTTPError 400 (VStr "empty request") otherwise

  let* '(auth_info, error) :=
    invoke (ExtractAuthInfo request) (extract_auth_info env request) in
  when truthy error
    raising HTTPError 401 error otherwise

  let* sign := get auth_info "sign" in
  when negb (truthy sign)
    raising HTTPError 401 (VStr "unauthorized") otherwise

  let* '(project, error) :=
    invoke (GetProjectById project_id) (get_project_by_id env project_id) in
  when truthy error
    raising HTTPError 500 (VStr (str env error)) otherwise
  when negb (truthy project)
    raising HTTPError 404 (VStr "project not found") otherwise

  let encoded_data := body (reread request) in
  when negb (nonempty encoded_data)
    raising HTTPError 400 (VStr "no request body") otherwise

  let* '(result, error) :=
    invoke (CheckAuth project sign encoded_data)
           (check_auth env project sign encoded_data) in
  when truthy error
    raising HTTPError 500 (VStr (str env error)) otherwise
  when negb (truthy result)
    raising HTTPError 401 (VStr "unauthorized") otherwise

  let* data :=
    invoke (DecodeData encoded_data) (decode_data env encoded_data) in
  when negb (truthy data)
    raising HTTPError 400 (VStr "malformed data") otherwise

  let* response := invoke NewResponse core.new in

  let* outcome :=
    invoke (Validate data (req_schema env)) (validate env data (req_schema env)) in
  match outcome with
  | Some e =>
      ret (core.set_error response (VStr e))
  | None =>
      let* req_id := get data "uid" in
      let* method := get data "method" in
      let* params := get data "params" in

      let response := core.set_uid response req_id in
      let response := core.set_method response method in

      let* known := contains (admin_params_schema env) method in
      if negb known then
        ret (core.set_error response (VStr "method not found"))
      else
        let* schema := getitem (admin_params_schema env) method in
        let* outcome :=
          invoke (Validate params schema) (validate env params schema) in
        match outcome with
        | Some e =>
            ret (core.set_error response (VStr e))
        | None =>
            let* '(result, error) :=
              invoke (ProcessCall project method params)
                     (process_call env project method params) in
            let response := core.set_body response result in
            let response := core.set_error response error in
            ret response
        end
  end.

End Post.
End ApiHandler.

(** ** The gates of the pipeline, named *)

Section Stages.

Variable env : Environment.
Variable request : HTTPServerRequest.
Variable project_id : string.

(** The body is present, auth extraction reports no error, and the auth
    info is a dictionary whose [sign] is the non-empty [sign]. *)
Definition signed (sign : value) : Prop :=
  nonempty (body request) = true /\
  truthy (snd (extract_auth_info env request)) = false /\
  get (fst (extract_auth_info env request)) "sign" = ret sign /\
  truthy sign = true.

(** The registry reports no error and finds [project]. *)
Definition resolved (project : value) : Prop :=
  fst (get_project_by_id env project_id) = project /\
  truthy (snd (get_project_by_id env project_id)) = false /\
  truthy project = true.

(** The verifier reports no error and accepts [sign] for the raw body. *)
Definition verified (project sign : value) : Prop :=
  truthy (snd (check_auth env project sign (body request))) = false /\
  truthy (fst (check_auth env project sign (body request))) = true.

(** The raw body decodes to [data]. *)
Definition decoded (data : value) : Prop :=
  decode_data env (body request) = data /\ truthy data = true.

(** No protocol-level rejection: the request gets as far as a Response. *)
Definition accepted (sign project data : value) : Prop :=
  signed sign /\ resolved project /\ verified project sign /\ decoded data.

(** The calls made up to and including signature verification, and up to
    and including decoding. *)
Definition verification_calls (sign project : value) : list Call :=
  [ ExtractAuthInfo request;
    GetProjectById project_id;
    CheckAuth project sign (body request) ].

Definition protocol_calls (sign project : value) : list Call :=
  verification_calls sign project ++ [ DecodeData (body request) ].

End Stages.

(** ** A small concrete deployment

    One environment to run the handlers on: the auth info travels in the
    request's arguments, a schema is the list of keys an object must have,
    and the registry knows the methods [publish] and [presence]. *)

Module Sample.

Definition extract_auth_info (request : HTTPServerRequest) : value * value :=
  match arguments request with
  | VDict items => (VDict items, VNone)
  | _ => (VNone, VStr "no auth info")
  end.

Definition envelope (method : string) : value :=
  VDict [ ("uid", VStr "7");
          ("method", VStr method);
          ("params", VDict [("channel", VStr "news")]) ].

Definition decode_data (encoded_data : string) : value :=
  if String.eqb encoded_data "PUBLISH" then envelope "publish"
  else if String.eqb encoded_data "PRESENCE" then envelope "presence"
  else if String.eqb encoded_data "REWIND" then envelope "rewind"
  else if String.eqb encoded_data "BARE" then
    VDict [("uid", VStr "7"); ("method", VStr "publish")]
  else VNone.

Definition get_project_by_id (project_id : string) : value * value :=
  if String.eqb project_id "p1" then (VDict [("secret_key", VStr "s3")], VNone)
  else if String.eqb project_id "down" then (VNone, VStr "registry down")
  else (VNone, VNone).

Definition check_auth (project sign : value) (encoded_data : string)
  : value * value :=
  match sign with
  | VStr s =>
      if String.eqb s "good" then (VBool true, VNone)
      else if String.eqb s "jam" then (VNone, VStr "verifier down")
      else (VBool false, VNone)
  | _ => (VBool false, VNone)
  end.

Definition process_call (project method params : value) : value * value :=
  match method with
  | VStr m =>
      if String.eqb m "publish" then (VBool true, VNone)
      else if String.eqb m "presence" then (VNone, VNone)
      else (VNone, VStr "method not found")
  | _ => (VNone, VStr "method not found")
  end.

Fixpoint missing (required : list value) (items : list (string * value))
  : option string :=
  match required with
  | [] => None
  | VStr key :: rest =>
      match assoc key items with
      | Some _ => missing rest items
      | None => Some (key ++ " is a required property")%string
      end
  | _ :: rest => missing rest items
  end.

Definition validate (instance schema : value) : option string :=
  match instance, schema with
  | VDict items, VList required => missing required items
  | _, VList _ => Some "not of type object"
  | _, _ => None
  end.

Definition str (v : value) : string :=
  match v with VStr s => s | _ => "" end.

Definition env : Environment :=
  Build_Environment
    extract_auth_info decode_data
    get_project_by_id check_auth process_call
    validate
    (VList [VStr "method"; VStr "params"])
    {[ "publish" := VList [VStr "channel"];
       "presence" := VList [VStr "channel"] ]}
    str.

Definition request (sign : string) (payload : string) : HTTPServerRequest :=
  {| body := payload; arguments := VDict [("sign", VStr sign)] |}.

Definition project : value := VDict [("secret_key", VStr "s3")].

End Sample.

(** ** BaseHandler *)

Module BaseHandler.

(** What [get_current_user] reads of the tornado handler: the secure
    cookies that came with the request, by name, each with the value
    [get_secure_cookie] gives for it. *)
Record RequestHandler : Type := {
  secure_cookies : list (string * value)
}.

(** tornado's [get_secure_cookie(name)]: the cookie's value, or [None] when
    there is no such cookie. *)
Definition get_secure_cookie (self : RequestHandler) (name : string) : value :=
  default VNone (assoc name (secure_cookies self)).

Definition get_current_user (self : RequestHandler) : value :=
  let user := get_secure_cookie self "user" in
  if negb (truthy user) then VNone else user.

End BaseHandler.

(** ** The transport firing the callbacks *)

Module Transport.
Import SockjsConnection.

(** The three events sockjs reports to a connection. *)
Inductive Event : Type :=
| Opened (info : value)
| Message (message : string)
| Closed.

Definition fire (self : Connection) (e : Event) : Run :=
  match e with
  | Opened info => on_open self info
  | Message message => on_message self message
  | Closed => on_close self
  end.

(** The callbacks run one after the other, each on the connection the
    previous one left behind: the runs, in order. *)
Fixpoint play (self : Connection) (events : list Event) : list Run :=
  match events with
  | [] => []
  | e :: rest => fire self e :: play (after (fire self e)) rest
  end.

(** The connection once all the events have been handled. *)
Fixpoint settle (self : Connection) (events : list Event) : Connection :=
  match events with
  | [] => self
  | e :: rest => settle (after (fire self e)) rest
  end.

(** All the effects of a sequence of runs, in order. *)
Definition trace (runs : list Run) : list Effect :=
  flat_map effects runs.

Definition is_opened (e : Event) : bool :=
  match e with Opened _ => true | _ => false end.

End Transport.

(** ** The order of the outside calls *)

(** [d.get(key)] where it is known to succeed, and the schema registered
    for a method. *)
Definition field (d : value) (key : string) : value :=
  match d with
  | VDict items => default VNone (assoc key items)
  | _ => VNone
  end.

Definition registered (env : Environment) (method : value) : value :=
  match method with
  | VStr name => default VNone (admin_params_schema env !! name)
  | _ => VNone
  end.

(** The outside calls of a run of [post] that goes all the way to
    dispatch, each with the arguments the body of [post] gives it. *)
Definition itinerary (env : Environment) (request : HTTPServerRequest)
    (project_id : string) : list Call :=
  let sign := field (fst (extract_auth_info env request)) "sign" in
  let project := fst (get_project_by_id env project_id) in
  let data := decode_data env (body request) in
  let method := field data "method" in
  let params := field data "params" in
  [ ExtractAuthInfo request;
    GetProjectById project_id;
    CheckAuth project sign (body request);
    DecodeData (body request);
    NewResponse;
    Validate data (req_schema env);
    Validate params (registered env method);
    ProcessCall project method params ].

(** ** A collaborator that meddles with the request *)

Module Meddling.


End Meddling.

(** ** A deployment that checks nothing

    The sample deployment with an auth extraction that hands over the
    request's arguments as they are, a general request schema that accepts
    every payload, and two payloads that are not envelopes. *)

Module Lenient.

Definition extract_auth_info (request : HTTPServerRequest) : value * value :=
  (arguments request, VNone).

Definition decode_data (encoded_data : string) : value :=
  if String.eqb encoded_data "LIST" then VList [VInt 1]
  else if String.eqb encoded_data "NESTED" then
    VDict [ ("uid", VStr "7");
            ("method", VList [VStr "publish"]);
            ("params", VDict [("channel", VStr "news")]) ]
  else if String.eqb encoded_data "SILENT" then
    VDict [ ("uid", VStr "7"); ("method", VStr "publish"); ("params", VDict []) ]
  else Sample.decode_data encoded_data.

Definition env : Environment :=
  Build_Environment
    extract_auth_info decode_data
    Sample.get_project_by_id Sample.check_auth Sample.process_call
    Sample.validate
    VNone
    {[ "publish" := VList [VStr "channel"] ]}
    Sample.str.

End Lenient.

(** * Properties *)

(** Unfolding the named gates into the equations they stand for. *)
Ltac open_gates :=
  repeat match goal with
  | H : accepted _ _ _ _ _ _ |- _ => destruct H as (? & ? & ? & ?)
  | H : signed _ _ _ |- _ => destruct H as (? & ? & ? & ?)
  | H : resolved _ _ _ |- _ => destruct H as (? & ? & ?)
  | H : verified _ _ _ _ |- _ => destruct H as (? & ?)
  | H : decoded _ _ _ |- _ => destruct H as (? & ?)
  end.

(** ** The handler monad *)

Lemma bind_invoke {A B} (c : Call) (r : A) (k : A -> M B) :
  bind (invoke c r) k = logged [c] (k r).
Proof. reflexivity. Qed.

Lemma bind_ret {A B} (a : A) (k : A -> M B) : bind (ret a) k = k a.
Proof. unfold bind, ret, logged. simpl. now destruct (k a). Qed.

Lemma logged_pair {A} (log log' : list Call) (r : Exn + A) :
  logged log (log', r) = (log ++ log', r).
Proof. reflexivity. Qed.

Lemma fst_logged {A} (log : list Call) (m : M A) :
  fst (logged log m) = log ++ fst m.
Proof. reflexivity. Qed.

Lemma snd_logged {A} (log : list Call) (m : M A) :
  snd (logged log m) = snd m.
Proof. reflexivity. Qed.

Lemma bind_raise {A B} (e : Exn) (k : A -> M B) : bind (raise e) k = raise e.
Proof. reflexivity. Qed.

(** A key that [registry[key]] finds is a key that [key in registry]
    reports. *)
Lemma getitem_contains (registry : gmap string value) (key v : value) :
  getitem registry key = ret v -> contains registry key = ret true.
Proof.
  destruct key; simpl; try discriminate.
  destruct (registry !! s) eqn:Hlookup; [|discriminate].
  intros _. now rewrite bool_decide_eq_true_2 by (now exists v0).
Qed.

#[local] Arguments logged : simpl never.

(** ** ApiHandler.post *)

Section Pipeline.

Variable env : Environment.
Variable request : HTTPServerRequest.
Variable project_id : string.

Abbreviation post := (ApiHandler.post env request project_id).

(** Running [post] through the gates that the hypotheses open. *)
Ltac through_gates :=
  open_gates;
  unfold ApiHandler.post, protocol_calls, verification_calls;
  repeat match goal with
  | H : nonempty _ = _ |- _ => rewrite H
  | H : truthy _ = _ |- _ => rewrite H
  | H : get _ _ = ret _ |- _ => rewrite H
  | H : decode_data _ _ = _ |- _ => rewrite H
  | H : validate _ _ _ = _ |- _ => rewrite H
  | H : contains _ _ = _ |- _ => rewrite H
  | H : getitem _ _ = _ |- _ => rewrite H
  | |- context [bind (ret _) _] => rewrite bind_ret
  | |- context [bind (invoke _ _) _] => rewrite bind_invoke
  | |- context [let (_, _) := ?answer in _] =>
      destruct answer; simpl fst in *; simpl snd in *; subst
  | _ => progress (simpl negb; cbv iota beta)
  end.

(** Reading the calls and the outcome off a run that has been decided. *)
Ltac read_run :=
  repeat first [ rewrite logged_pair | rewrite fst_logged | rewrite snd_logged ];
  try reflexivity.

(** Deciding every guard of [post] in turn, whatever the collaborators
    answer. *)
Ltac explore :=
  unfold ApiHandler.post, get, contains, getitem;
  repeat first
    [ rewrite bind_invoke
    | rewrite bind_ret
    | rewrite bind_raise
    | progress cbv beta iota
    | match goal with
      | |- context [match ?x with _ => _ end] => destruct x eqn:?
      end ].

(** C4.  A request with a non-empty body whose auth info carries no
    [sign] (a missing key reads as [None], which tests false like an
    empty signature) is answered 401, and the only call made is the auth
    extraction: the project registry is never consulted. *)
Theorem post_missing_sign_unauthorized (auth_items : list (string * value)) :
  nonempty (body request) = true ->
  fst (extract_auth_info env request) = VDict auth_items ->
  truthy (default VNone (assoc "sign" auth_items)) = false ->
  post =
    ([ExtractAuthInfo request],
     inl (HTTPError 401
            (if truthy (snd (extract_auth_info env request))
             then snd (extract_auth_info env request)
             else VStr "unauthorized"))) /\
  (forall project_id', ~ In (GetProjectById project_id') (fst post)).
Proof.
  intros Hbody Hauth Hsign.
  assert (Hrun : post =
    ([ExtractAuthInfo request],
     inl (HTTPError 401
            (if truthy (snd (extract_auth_info env request))
             then snd (extract_auth_info env request)
             else VStr "unauthorized")))).
  { unfold ApiHandler.post. rewrite Hbody. simpl negb. cbv iota.
    destruct (extract_auth_info env request) as [auth_info auth_error].
    simpl in Hauth. subst auth_info. simpl.
    destruct (truthy auth_error); [reflexivity|].
    rewrite Hsign. reflexivity. }
  split; [exact Hrun|].
  rewrite Hrun. simpl.
  intros project_id' [Hin | []]. discriminate Hin.
Qed.

(** C5.  Once a request is signed and its project resolved, the verifier
    is called with that project, the signature and the raw body, and
    nothing is decoded before it answers.  A verifier error ends the run
    with 500 and a refused signature ends it with 401; in both cases the
    verifier's is the last call made. *)
Theorem post_verifies_raw_body (sign project : value) :
  signed env request sign ->
  resolved env project_id project ->
  (exists rest : list Call,
      fst post = verification_calls request project_id sign project ++ rest) /\
  (truthy (snd (check_auth env project sign (body request))) = true ->
   post = (verification_calls request project_id sign project,
           inl (HTTPError 500
                  (VStr (str env (snd (check_auth env project sign (body request)))))))) /\
  (truthy (snd (check_auth env project sign (body request))) = false ->
   truthy (fst (check_auth env project sign (body request))) = false ->
   post = (verification_calls request project_id sign project,
           inl (HTTPError 401 (VStr "unauthorized")))).
Proof.
  intros Hsigned Hresolved. through_gates.
  repeat split.
  - read_run. simpl. eexists. reflexivity.
  - intros Herr. rewrite Herr. reflexivity.
  - intros Herr Hres. rewrite Herr, Hres. reflexivity.
Qed.

(** A run that ends in an [HTTPError] carries one of the four transport
    codes and never got as far as constructing a Response. *)
Lemma post_http_error_no_response (status_code : Z) (log_message : value) :
  snd post = inl (HTTPError status_code log_message) ->
  In status_code [400; 401; 404; 500] /\ ~ In NewResponse (fst post).
Proof.
  explore; read_run; simpl; intros Hrun;
    try discriminate Hrun;
    injection Hrun as <- <-;
    (split; [ simpl; tauto | ]);
    intros Hin; simpl in Hin; intuition discriminate.
Qed.

(** C6.  Each protocol-level rejection ends the run with its transport
    status and before any Response is constructed: an empty body and an
    undecodable payload give 400; an auth extraction error, an empty
    signature and a refused signature give 401; an unknown project gives
    404; a registry error and a verifier error give 500.  No run that
    ends in an [HTTPError] carries another status or has constructed a
    Response. *)
Theorem post_protocol_rejections :
  (nonempty (body request) = false ->
   post = ([], inl (HTTPError 400 (VStr "empty request")))) /\
  (nonempty (body request) = true ->
   truthy (snd (extract_auth_info env request)) = true ->
   post = ([ExtractAuthInfo request],
           inl (HTTPError 401 (snd (extract_auth_info env request))))) /\
  (forall sign : value,
   nonempty (body request) = true ->
   truthy (snd (extract_auth_info env request)) = false ->
   get (fst (extract_auth_info env request)) "sign" = ret sign ->
   truthy sign = false ->
   post = ([ExtractAuthInfo request],
           inl (HTTPError 401 (VStr "unauthorized")))) /\
  (forall sign : value,
   signed env request sign ->
   truthy (snd (get_project_by_id env project_id)) = true ->
   post = ([ExtractAuthInfo request; GetProjectById project_id],
           inl (HTTPError 500
                  (VStr (str env (snd (get_project_by_id env project_id))))))) /\
  (forall sign : value,
   signed env request sign ->
   truthy (snd (get_project_by_id env project_id)) = false ->
   truthy (fst (get_project_by_id env project_id)) = false ->
   post = ([ExtractAuthInfo request; GetProjectById project_id],
           inl (HTTPError 404 (VStr "project not found")))) /\
  (forall sign project : value,
   signed env request sign ->
   resolved env project_id project ->
   truthy (snd (check_auth env project sign (body request))) = true ->
   post = (verification_calls request project_id sign project,
           inl (HTTPError 500
                  (VStr (str env (snd (check_auth env project sign (body request)))))))) /\
  (forall sign project : value,
   signed env request sign ->
   resolved env project_id project ->
   truthy (snd (check_auth env project sign (body request))) = false ->
   truthy (fst (check_auth env project sign (body request))) = false ->
   post = (verification_calls request project_id sign project,
           inl (HTTPError 401 (VStr "unauthorized")))) /\
  (forall sign project : value,
   signed env request sign ->
   resolved env project_id project ->
   verified env request project sign ->
   truthy (decode_data env (body request)) = false ->
   post = (protocol_calls request project_id sign project,
           inl (HTTPError 400 (VStr "malformed data")))) /\
  (forall (status_code : Z) (log_message : value),
   snd post = inl (HTTPError status_code log_message) ->
   In status_code [400; 401; 404; 500] /\ ~ In NewResponse (fst post)).
Proof.
  repeat apply conj.
  - intros Hbody. unfold ApiHandler.post. now rewrite Hbody.
  - intros Hbody Herror. through_gates. reflexivity.
  - intros sign Hbody Herror Hget Hsign. through_gates. reflexivity.
  - intros sign Hsigned Herror. through_gates. reflexivity.
  - intros sign Hsigned Herror Hproject. through_gates. reflexivity.
  - intros sign project Hsigned Hresolved Herror. through_gates. reflexivity.
  - intros sign project Hsigned Hresolved Herror Hresult. through_gates.
    reflexivity.
  - intros sign project Hsigned Hresolved Hverified Hdata. through_gates.
    reflexivity.
  - apply post_http_error_no_response.
Qed.

(** C8.  When the decoded body fails the general request schema, the
    Response carries the validation message in [error] and nothing else:
    [uid] and [method] stay unpopulated whatever the payload holds. *)
Theorem post_envelope_rejected (sign project data : value) (message : string) :
  accepted env request project_id sign project data ->
  validate env data (req_schema env) = Some message ->
  post =
    (protocol_calls request project_id sign project
       ++ [NewResponse; Validate data (req_schema env)],
     inr {| core.uid := VNone; core.method := VNone;
            core.body := VNone; core.error := VStr message |}).
Proof.
  intros Haccepted Hinvalid. through_gates. reflexivity.
Qed.

(** C7.  When a decoded object passes the general request schema and its
    [method] is not a key of the command schema registry, the Response
    carries [error = "method not found"] with [uid] and [method] as the
    payload has them, and the command processor is never called. *)
Theorem post_method_not_found
    (sign project : value) (items : list (string * value)) :
  accepted env request project_id sign project (VDict items) ->
  validate env (VDict items) (req_schema env) = None ->
  contains (admin_params_schema env) (default VNone (assoc "method" items))
    = ret false ->
  post =
    (protocol_calls request project_id sign project
       ++ [NewResponse; Validate (VDict items) (req_schema env)],
     inr {| core.uid := default VNone (assoc "uid" items);
            core.method := default VNone (assoc "method" items);
            core.body := VNone;
            core.error := VStr "method not found" |}) /\
  (forall p m ps : value, ~ In (ProcessCall p m ps) (fst post)).
Proof.
  intros Haccepted Hvalid Hunknown.
  assert (Hrun : post =
    (protocol_calls request project_id sign project
       ++ [NewResponse; Validate (VDict items) (req_schema env)],
     inr {| core.uid := default VNone (assoc "uid" items);
            core.method := default VNone (assoc "method" items);
            core.body := VNone;
            core.error := VStr "method not found" |})).
  { through_gates. simpl get. through_gates. reflexivity. }
  split; [exact Hrun|].
  rewrite Hrun. simpl. intros p m ps Hin. intuition discriminate.
Qed.

(** C9.  When a request reaches dispatch, the Response carries the
    payload's [uid] (or [None] when it has none) unchanged, next to the
    method and to whatever the processor answered; this holds in
    particular when the processor reports no error. *)
Theorem post_dispatch_copies_uid
    (sign project schema : value) (items : list (string * value)) :
  accepted env request project_id sign project (VDict items) ->
  validate env (VDict items) (req_schema env) = None ->
  getitem (admin_params_schema env) (default VNone (assoc "method" items))
    = ret schema ->
  validate env (default VNone (assoc "params" items)) schema = None ->
  post =
    (protocol_calls request project_id sign project
       ++ [ NewResponse;
            Validate (VDict items) (req_schema env);
            Validate (default VNone (assoc "params" items)) schema;
            ProcessCall project
              (default VNone (assoc "method" items))
              (default VNone (assoc "params" items)) ],
     inr {| core.uid := default VNone (assoc "uid" items);
            core.method := default VNone (assoc "method" items);
            core.body :=
              fst (process_call env project
                     (default VNone (assoc "method" items))
                     (default VNone (assoc "params" items)));
            core.error :=
              snd (process_call env project
                     (default VNone (assoc "method" items))
                     (default VNone (assoc "params" items))) |}).
Proof.
  intros Haccepted Hvalid Hschema Hparams.
  pose proof (getitem_contains _ _ _ Hschema) as Hknown.
  through_gates. simpl get. through_gates. reflexivity.
Qed.

(** C3, as the code has it.  A Response that was produced without
    reaching the processor has [error] populated by a message and [body]
    unpopulated; a Response produced by dispatch carries in [body] and
    [error] exactly the pair the processor answered, whatever it is. *)
Theorem post_response_body_and_error
    (calls : list Call) (response : core.Response) :
  post = (calls, inr response) ->
  (core.populated (core.body response) = false /\
   core.populated (core.error response) = true /\
   forall p m ps : value, ~ In (ProcessCall p m ps) calls) \/
  (exists p m ps : value,
      last calls = Some (ProcessCall p m ps) /\
      (core.body response, core.error response) = process_call env p m ps).
Proof.
  explore; read_run; simpl; intros Hrun; try discriminate Hrun;
    injection Hrun as <- <-.
  all: try (left; repeat split; simpl; try reflexivity;
            intros p m ps Hin; intuition discriminate).
  all: right; do 3 eexists; split; [reflexivity|]; simpl; congruence.
Qed.

End Pipeline.

(** *** The pipeline on the sample deployment *)

Lemma post_missing_sign_unauthorized_witness :
  let request := {| body := "PUBLISH"; arguments := VDict [("key", VStr "k")] |} in
  ApiHandler.post Sample.env request "p1"
    = ([ExtractAuthInfo request], inl (HTTPError 401 (VStr "unauthorized"))) /\
  (forall project_id', ~ In (GetProjectById project_id')
                            (fst (ApiHandler.post Sample.env request "p1"))).
Proof.
  exact (post_missing_sign_unauthorized Sample.env
           {| body := "PUBLISH"; arguments := VDict [("key", VStr "k")] |} "p1"
           [("key", VStr "k")] eq_refl eq_refl eq_refl).
Defined.

Lemma post_verifies_raw_body_witness :
  ApiHandler.post Sample.env (Sample.request "jam" "PUBLISH") "p1"
    = ([ ExtractAuthInfo (Sample.request "jam" "PUBLISH");
         GetProjectById "p1";
         CheckAuth Sample.project (VStr "jam") "PUBLISH" ],
       inl (HTTPError 500 (VStr "verifier down"))) /\
  ApiHandler.post Sample.env (Sample.request "forged" "PUBLISH") "p1"
    = ([ ExtractAuthInfo (Sample.request "forged" "PUBLISH");
         GetProjectById "p1";
         CheckAuth Sample.project (VStr "forged") "PUBLISH" ],
       inl (HTTPError 401 (VStr "unauthorized"))).
Proof.
  split.
  - apply (post_verifies_raw_body Sample.env (Sample.request "jam" "PUBLISH")
             "p1" (VStr "jam") Sample.project);
      repeat split; reflexivity.
  - apply (post_verifies_raw_body Sample.env (Sample.request "forged" "PUBLISH")
             "p1" (VStr "forged") Sample.project);
      repeat split; reflexivity.
Defined.

Lemma post_protocol_rejections_witness :
  ApiHandler.post Sample.env (Sample.request "good" "") "p1"
    = ([], inl (HTTPError 400 (VStr "empty request"))) /\
  ApiHandler.post Sample.env (Sample.request "" "PUBLISH") "p1"
    = ([ExtractAuthInfo (Sample.request "" "PUBLISH")],
       inl (HTTPError 401 (VStr "unauthorized"))) /\
  ApiHandler.post Sample.env (Sample.request "good" "PUBLISH") "down"
    = ([ExtractAuthInfo (Sample.request "good" "PUBLISH"); GetProjectById "down"],
       inl (HTTPError 500 (VStr "registry down"))) /\
  ApiHandler.post Sample.env (Sample.request "good" "PUBLISH") "p2"
    = ([ExtractAuthInfo (Sample.request "good" "PUBLISH"); GetProjectById "p2"],
       inl (HTTPError 404 (VStr "project not found"))) /\
  ApiHandler.post Sample.env (Sample.request "good" "junk") "p1"
    = ([ ExtractAuthInfo (Sample.request "good" "junk");
         GetProjectById "p1";
         CheckAuth Sample.project (VStr "good") "junk";
         DecodeData "junk" ],
       inl (HTTPError 400 (VStr "malformed data"))).
Proof.
  repeat apply conj.
  - apply (post_protocol_rejections Sample.env (Sample.request "good" "") "p1").
    reflexivity.
  - apply (post_protocol_rejections Sample.env (Sample.request "" "PUBLISH") "p1")
      with (sign := VStr ""); reflexivity.
  - apply (post_protocol_rejections Sample.env (Sample.request "good" "PUBLISH") "down")
      with (sign := VStr "good"); repeat split; reflexivity.
  - apply (post_protocol_rejections Sample.env (Sample.request "good" "PUBLISH") "p2")
      with (sign := VStr "good"); repeat split; reflexivity.
  - apply (post_protocol_rejections Sample.env (Sample.request "good" "junk") "p1")
      with (sign := VStr "good") (project := Sample.project);
      repeat split; reflexivity.
Defined.

Lemma post_envelope_rejected_witness :
  ApiHandler.post Sample.env (Sample.request "good" "BARE") "p1"
    = ([ ExtractAuthInfo (Sample.request "good" "BARE");
         GetProjectById "p1";
         CheckAuth Sample.project (VStr "good") "BARE";
         DecodeData "BARE";
         NewResponse;
         Validate (VDict [("uid", VStr "7"); ("method", VStr "publish")])
                  (VList [VStr "method"; VStr "params"]) ],
       inr {| core.uid := VNone; core.method := VNone; core.body := VNone;
              core.error := VStr "params is a required property" |}).
Proof.
  apply (post_envelope_rejected Sample.env (Sample.request "good" "BARE") "p1"
           (VStr "good") Sample.project
           (VDict [("uid", VStr "7"); ("method", VStr "publish")])
           "params is a required property").
  - repeat split; reflexivity.
  - reflexivity.
Defined.

Lemma post_method_not_found_witness :
  ApiHandler.post Sample.env (Sample.request "good" "REWIND") "p1"
    = ([ ExtractAuthInfo (Sample.request "good" "REWIND");
         GetProjectById "p1";
         CheckAuth Sample.project (VStr "good") "REWIND";
         DecodeData "REWIND";
         NewResponse;
         Validate (Sample.envelope "rewind") (VList [VStr "method"; VStr "params"]) ],
       inr {| core.uid := VStr "7"; core.method := VStr "rewind";
              core.body := VNone; core.error := VStr "method not found" |}) /\
  (forall p m ps : value,
      ~ In (ProcessCall p m ps)
           (fst (ApiHandler.post Sample.env (Sample.request "good" "REWIND") "p1"))).
Proof.
  apply (post_method_not_found Sample.env (Sample.request "good" "REWIND") "p1"
           (VStr "good") Sample.project
           [ ("uid", VStr "7"); ("method", VStr "rewind");
             ("params", VDict [("channel", VStr "news")]) ]).
  - repeat split; reflexivity.
  - reflexivity.
  - vm_compute. reflexivity.
Defined.

Lemma post_dispatch_copies_uid_witness :
  ApiHandler.post Sample.env (Sample.request "good" "PUBLISH") "p1"
    = ([ ExtractAuthInfo (Sample.request "good" "PUBLISH");
         GetProjectById "p1";
         CheckAuth Sample.project (VStr "good") "PUBLISH";
         DecodeData "PUBLISH";
         NewResponse;
         Validate (Sample.envelope "publish") (VList [VStr "method"; VStr "params"]);
         Validate (VDict [("channel", VStr "news")]) (VList [VStr "channel"]);
         ProcessCall Sample.project (VStr "publish")
                     (VDict [("channel", VStr "news")]) ],
       inr {| core.uid := VStr "7"; core.method := VStr "publish";
              core.body := VBool true; core.error := VNone |}).
Proof.
  apply (post_dispatch_copies_uid Sample.env (Sample.request "good" "PUBLISH") "p1"
           (VStr "good") Sample.project (VList [VStr "channel"])
           [ ("uid", VStr "7"); ("method", VStr "publish");
             ("params", VDict [("channel", VStr "news")]) ]).
  - repeat split; reflexivity.
  - reflexivity.
  - vm_compute. reflexivity.
  - reflexivity.
Defined.

Lemma post_response_body_and_error_witness :
  let calls :=
    [ ExtractAuthInfo (Sample.request "good" "PUBLISH");
      GetProjectById "p1";
      CheckAuth Sample.project (VStr "good") "PUBLISH";
      DecodeData "PUBLISH";
      NewResponse;
      Validate (Sample.envelope "publish") (VList [VStr "method"; VStr "params"]);
      Validate (VDict [("channel", VStr "news")]) (VList [VStr "channel"]);
      ProcessCall Sample.project (VStr "publish")
                  (VDict [("channel", VStr "news")]) ] in
  let response :=
    {| core.uid := VStr "7"; core.method := VStr "publish";
       core.body := VBool true; core.error := VNone |} in
  ApiHandler.post Sample.env (Sample.request "good" "PUBLISH") "p1"
    = (calls, inr response) /\
  ((core.populated (core.body response) = false /\
    core.populated (core.error response) = true /\
    forall p m ps : value, ~ In (ProcessCall p m ps) calls) \/
   (exists p m ps : value,
       last calls = Some (ProcessCall p m ps) /\
       (core.body response, core.error response)
         = process_call Sample.env p m ps)).
Proof.
  intros calls response.
  assert (Hrun : ApiHandler.post Sample.env (Sample.request "good" "PUBLISH") "p1"
                 = (calls, inr response)) by (vm_compute; reflexivity).
  split; [exact Hrun|].
  exact (post_response_body_and_error Sample.env
           (Sample.request "good" "PUBLISH") "p1" calls response Hrun).
Defined.

(** C3, as stated, fails.  On the sample deployment the processor answers
    a [presence] call with neither a result nor an error, and the Response
    goes out with [uid] and [method] populated and both [body] and [error]
    empty. *)
Lemma post_presence_leaves_body_and_error_empty :
  ~ (forall (calls : list Call) (response : core.Response),
        ApiHandler.post Sample.env (Sample.request "good" "PRESENCE") "p1"
          = (calls, inr response) ->
        xorb (core.populated (core.body response))
             (core.populated (core.error response)) = true \/
        (core.populated (core.body response) = false /\
         core.populated (core.error response) = false /\
         core.populated (core.uid response) = false /\
         core.populated (core.method response) = false)).
Proof.
  intros Hclaim.
  destruct (Hclaim _ _ eq_refl) as [Hone | (_ & _ & Huid & _)].
  - discriminate Hone.
  - discriminate Huid.
Qed.

(** ** SockjsConnection *)

Section Lifecycle.
Import SockjsConnection.

(** C1, as the code has it.  When the connection opens without a
    session, the agent is constructed and bound all the same (it is
    built before the session is looked at), no heartbeat is started,
    and the inherited [close] is called at once. *)
Theorem on_open_without_session (self : Connection) (info : value) :
  session self = None ->
  effects (on_open self info) = [ClientCreated {| info := info |}; Close] /\
  client (after (on_open self info)) = Some {| info := info |} /\
  ~ In StartHeartbeat (effects (on_open self info)).
Proof.
  intros Habsent. unfold on_open, set_client. simpl. rewrite Habsent. simpl.
  repeat split. intuition discriminate.
Qed.

(** C2, as the code has it.  Once [on_close] has completed, the
    connection holds no agent.  A message arriving afterwards and a
    second close both end in an [AttributeError]: they reach no agent
    and leave the connection as it is, but they are not silent. *)
Theorem on_close_then_faults (self : Connection) :
  raised (on_close self) = None ->
  client (after (on_close self)) = None /\
  (forall message : string,
      on_message (after (on_close self)) message =
        {| effects := []; after := after (on_close self);
           raised := Some AttributeError |}) /\
  on_close (after (on_close self)) =
    {| effects := []; after := after (on_close self);
       raised := Some AttributeError |}.
Proof.
  unfold on_close, on_message.
  destruct (client self) as [c|]; simpl; [intros _ | discriminate].
  repeat split.
Qed.

End Lifecycle.

Lemma on_open_without_session_witness :
  let self :=
    {| SockjsConnection.session := None; SockjsConnection.client := None |} in
  let info := VDict [("ip", VStr "10.0.0.7")] in
  SockjsConnection.effects (SockjsConnection.on_open self info) =
    [ SockjsConnection.ClientCreated {| SockjsConnection.info := info |};
      SockjsConnection.Close ] /\
  SockjsConnection.client
    (SockjsConnection.after (SockjsConnection.on_open self info)) =
    Some {| SockjsConnection.info := info |} /\
  ~ In SockjsConnection.StartHeartbeat
       (SockjsConnection.effects (SockjsConnection.on_open self info)).
Proof.
  intros self info.
  apply (on_open_without_session self info).
  reflexivity.
Defined.

(** C1, as stated, fails: opening without a session does construct and
    bind an agent. *)
Lemma on_open_without_session_creates_client :
  let run :=
    SockjsConnection.on_open
      {| SockjsConnection.session := None; SockjsConnection.client := None |}
      VNone in
  ~ ((forall c, ~ In (SockjsConnection.ClientCreated c)
                     (SockjsConnection.effects run)) /\
     SockjsConnection.client (SockjsConnection.after run) = None /\
     ~ In SockjsConnection.StartHeartbeat (SockjsConnection.effects run) /\
     In SockjsConnection.Close (SockjsConnection.effects run)).
Proof.
  intros run (Hnone & _).
  apply (Hnone {| SockjsConnection.info := VNone |}).
  left. reflexivity.
Qed.

Lemma on_close_then_faults_witness :
  let self :=
    {| SockjsConnection.session :=
         Some {| SockjsConnection.transport_name := "websocket" |};
       SockjsConnection.client := Some {| SockjsConnection.info := VNone |} |} in
  let closed := SockjsConnection.after (SockjsConnection.on_close self) in
  SockjsConnection.client closed = None /\
  (forall message : string,
      SockjsConnection.on_message closed message =
        {| SockjsConnection.effects := [];
           SockjsConnection.after := closed;
           SockjsConnection.raised := Some AttributeError |}) /\
  SockjsConnection.on_close closed =
    {| SockjsConnection.effects := [];
       SockjsConnection.after := closed;
       SockjsConnection.raised := Some AttributeError |}.
Proof.
  intros self closed.
  apply (on_close_then_faults self).
  reflexivity.
Defined.

(** C2, as stated, fails: on a connection that has been closed, a late
    message and a second close are not silent no-ops. *)
Lemma on_close_twice_is_not_a_noop :
  let self :=
    {| SockjsConnection.session :=
         Some {| SockjsConnection.transport_name := "websocket" |};
       SockjsConnection.client := Some {| SockjsConnection.info := VNone |} |} in
  let closed := SockjsConnection.after (SockjsConnection.on_close self) in
  ~ (SockjsConnection.on_message closed "late" =
       {| SockjsConnection.effects := [];
          SockjsConnection.after := closed;
          SockjsConnection.raised := None |} /\
     SockjsConnection.on_close closed =
       {| SockjsConnection.effects := [];
          SockjsConnection.after := closed;
          SockjsConnection.raised := None |}).
Proof.
  intros self closed (Hmessage & _). discriminate Hmessage.
Qed.

(** * Further properties of the handlers *)

(** ** ApiHandler.post: what every run has in common *)

Ltac decide_guards :=
  unfold ApiHandler.post, get, contains, getitem;
  repeat first
    [ rewrite bind_invoke
    | rewrite bind_ret
    | rewrite bind_raise
    | progress cbv beta iota
    | match goal with
      | |- context [match ?x with _ => _ end] => destruct x eqn:?
      end ];
  repeat first [ rewrite logged_pair | rewrite fst_logged | rewrite snd_logged ].

(** Guards as the source tests them, [if not x], read as facts about [x]. *)
Ltac plain_guards :=
  repeat match goal with
  | H : negb _ = false |- _ => apply negb_false_iff in H
  | H : negb _ = true |- _ => apply negb_true_iff in H
  end.

(** From the answers met along a run to the gates they open. *)
Ltac show_accepted :=
  match goal with
  | Hauth : extract_auth_info _ _ = (VDict ?items, _),
    Hproject : get_project_by_id _ _ = (?project, _),
    Hcheck : check_auth _ _ _ _ = _ |- _ =>
      exists (default VNone (assoc "sign" items)), project;
      unfold accepted, signed, resolved, verified, decoded;
      rewrite Hauth, Hproject; simpl; rewrite Hcheck; simpl;
      repeat split; assumption
  end.

Section EveryRun.

Variable env : Environment.
Variable request : HTTPServerRequest.
Variable project_id : string.

(** The outside calls of a run are an initial stretch of the itinerary:
    they are made in the order of the body of [post], each once at most,
    with the arguments the body gives them, the general validation of the
    payload before the validation of its params; a run that stops makes
    no later call. *)
Theorem post_calls_follow_itinerary :
  fst (ApiHandler.post env request project_id)
    `prefix_of` itinerary env request project_id.
Proof.
  decide_guards; unfold itinerary;
    repeat match goal with
    | H : _ = _ |- _ => rewrite H
    end;
    simpl;
    repeat match goal with
    | H : _ = _ |- _ => rewrite H; simpl
    end;
    eexists; reflexivity.
Qed.

(** The guarded lookup [admin_params_schema[method]] never fails: no run
    of [post] ends in a [KeyError]. *)
Theorem post_never_raises_KeyError :
  snd (ApiHandler.post env request project_id) <> inl KeyError.
Proof.
  decide_guards; simpl; discriminate.
Qed.

(** A Response is only ever produced for a request that passed every
    protocol gate: it was signed, its project was found, its signature
    was accepted for the raw body, and the body decoded. *)
Theorem post_response_only_when_accepted (response : core.Response) :
  snd (ApiHandler.post env request project_id) = inr response ->
  exists sign project : value,
    accepted env request project_id sign project
      (decode_data env (body request)).
Proof.
  decide_guards; simpl; intros Hrun; try discriminate Hrun.
  all: plain_guards; show_accepted.
Qed.

(** The command processor is called only for a request that passed every
    protocol gate and both validations: it gets the resolved project, the
    payload's [method], which is a key of the registry, and the payload's
    [params], which conform to the schema registered for the method. *)
Theorem post_dispatch_only_when_validated (project method params : value) :
  In (ProcessCall project method params)
     (fst (ApiHandler.post env request project_id)) ->
  exists sign schema : value,
    accepted env request project_id sign project
      (decode_data env (body request)) /\
    validate env (decode_data env (body request)) (req_schema env) = None /\
    get (decode_data env (body request)) "method" = ret method /\
    get (decode_data env (body request)) "params" = ret params /\
    getitem (admin_params_schema env) method = ret schema /\
    validate env params schema = None.
Proof.
  decide_guards; simpl; intros Hin;
    repeat (destruct Hin as [Hin | Hin]; try discriminate Hin);
    try contradiction.
  all: injection Hin as <- <- <-; plain_guards.
  all: match goal with
       | Hfirst : ?lookup = Some _, Hsecond : ?lookup = _ |- _ =>
           rewrite Hfirst in Hsecond; try discriminate Hsecond;
           injection Hsecond as <-
       end.
  all: match goal with
       | Hauth : extract_auth_info _ _ = (VDict ?items, _),
         Hproject : get_project_by_id _ _ = _,
         Hcheck : check_auth _ _ _ _ = _ |- _ =>
           exists (default VNone (assoc "sign" items)); eexists;
           unfold accepted, signed, resolved, verified, decoded;
           rewrite Hauth, Hproject; simpl; rewrite Hcheck; simpl;
           repeat split; try reflexivity; assumption
       end.
Qed.

(** Whenever a Response comes out of a payload that passed the general
    request schema, the payload is an object and the Response repeats its
    [uid] and its [method] as they are: on an unknown method, on rejected
    params and on dispatch alike. *)
Theorem post_response_echoes_envelope
    (calls : list Call) (response : core.Response) :
  ApiHandler.post env request project_id = (calls, inr response) ->
  validate env (decode_data env (body request)) (req_schema env) = None ->
  get (decode_data env (body request)) "uid" = ret (core.uid response) /\
  get (decode_data env (body request)) "method" = ret (core.method response).
Proof.
  intros Hrun Hvalid. revert Hrun.
  decide_guards; simpl; intros Hrun; try discriminate Hrun;
    try congruence.
  all: injection Hrun as <- <-; simpl; split; congruence.
Qed.

End EveryRun.

(** ** ApiHandler.post: the two reads of the body *)

(** When the body is read the second time as it was read the first, the
    run is the run of [post]. *)
Lemma post_shared_read_only
    (env : Environment) (reread : HTTPServerRequest -> HTTPServerRequest)
    (request : HTTPServerRequest) (project_id : string) :
  body (reread request) = body request ->
  ApiHandler.post_shared env reread request project_id
    = ApiHandler.post env request project_id.
Proof.
  intros Hsame. unfold ApiHandler.post_shared, ApiHandler.post.
  rewrite Hsame. reflexivity.
Qed.


(** ** ApiHandler.post: past the protocol gates *)

Ltac pass_gates :=
  open_gates;
  unfold ApiHandler.post, protocol_calls, verification_calls;
  repeat match goal with
  | H : nonempty _ = _ |- _ => rewrite H
  | H : truthy _ = _ |- _ => rewrite H
  | H : get _ _ = _ |- _ => rewrite H
  | H : decode_data _ _ = _ |- _ => rewrite H
  | H : validate _ _ _ = _ |- _ => rewrite H
  | H : contains _ _ = _ |- _ => rewrite H
  | H : getitem _ _ = _ |- _ => rewrite H
  | |- context [bind (ret _) _] => rewrite bind_ret
  | |- context [bind (raise _) _] => rewrite bind_raise
  | |- context [bind (invoke _ _) _] => rewrite bind_invoke
  | |- context [let (_, _) := ?answer in _] =>
      destruct answer; simpl fst in *; simpl snd in *; subst
  | _ => progress (simpl negb; cbv iota beta)
  end.

Section PastTheGates.

Variable env : Environment.
Variable request : HTTPServerRequest.
Variable project_id : string.

(** When the params do not conform to the schema registered for the
    method, the Response carries the validation message in [error], the
    payload's [uid] and [method], and no [body]; the processor is not
    called. *)
Theorem post_params_rejected
    (sign project schema : value) (items : list (string * value))
    (message : string) :
  accepted env request project_id sign project (VDict items) ->
  validate env (VDict items) (req_schema env) = None ->
  getitem (admin_params_schema env) (default VNone (assoc "method" items))
    = ret schema ->
  validate env (default VNone (assoc "params" items)) schema = Some message ->
  ApiHandler.post env request project_id =
    (protocol_calls request project_id sign project
       ++ [ NewResponse;
            Validate (VDict items) (req_schema env);
            Validate (default VNone (assoc "params" items)) schema ],
     inr {| core.uid := default VNone (assoc "uid" items);
            core.method := default VNone (assoc "method" items);
            core.body := VNone;
            core.error := VStr message |}).
Proof.
  intros Haccepted Hvalid Hschema Hparams.
  pose proof (getitem_contains _ _ _ Hschema) as Hknown.
  pass_gates. simpl get. pass_gates. reflexivity.
Qed.

(** When auth extraction reports no error and yet hands back something
    that is not a dictionary, reading [sign] off it fails: the run ends
    in an [AttributeError] before the project registry is consulted. *)
Theorem post_auth_info_not_a_dict :
  nonempty (body request) = true ->
  truthy (snd (extract_auth_info env request)) = false ->
  (forall items, fst (extract_auth_info env request) <> VDict items) ->
  ApiHandler.post env request project_id =
    ([ExtractAuthInfo request], inl AttributeError).
Proof.
  intros Hbody Herror Hshape. unfold ApiHandler.post.
  rewrite Hbody. simpl negb. cbv iota.
  destruct (extract_auth_info env request) as [auth_info auth_error].
  simpl fst in *; simpl snd in *.
  rewrite bind_invoke. cbv beta iota. rewrite Herror.
  destruct auth_info; try reflexivity.
  now destruct (Hshape items).
Qed.

(** When the general request schema lets through a payload that is not an
    object, reading [uid] off it fails: the run ends in an
    [AttributeError] and no Response goes out. *)
Theorem post_payload_not_a_dict (sign project data : value) :
  accepted env request project_id sign project data ->
  validate env data (req_schema env) = None ->
  (forall items, data <> VDict items) ->
  ApiHandler.post env request project_id =
    (protocol_calls request project_id sign project
       ++ [NewResponse; Validate data (req_schema env)],
     inl AttributeError).
Proof.
  intros Haccepted Hvalid Hshape.
  assert (Hget : get data "uid" = raise AttributeError).
  { destruct data; try reflexivity. now destruct (Hshape items). }
  pass_gates. reflexivity.
Qed.

(** When the payload's [method] is a list or an object, testing it against
    the registry fails: the run ends in a [TypeError], after the general
    validation and before any params validation or dispatch. *)
Theorem post_unhashable_method
    (sign project : value) (items : list (string * value)) :
  accepted env request project_id sign project (VDict items) ->
  validate env (VDict items) (req_schema env) = None ->
  hashable (default VNone (assoc "method" items)) = false ->
  ApiHandler.post env request project_id =
    (protocol_calls request project_id sign project
       ++ [NewResponse; Validate (VDict items) (req_schema env)],
     inl TypeError).
Proof.
  intros Haccepted Hvalid Hmethod.
  assert (Hin : contains (admin_params_schema env)
                  (default VNone (assoc "method" items)) = raise TypeError).
  { destruct (default VNone (assoc "method" items));
      try discriminate Hmethod; reflexivity. }
  pass_gates. simpl get. pass_gates. reflexivity.
Qed.

(** Past the protocol gates every request is answered with a Response,
    provided that a payload the general schema lets through is an object
    whose [method] can be looked up: a payload-level rejection is never a
    transport fault. *)
Theorem post_answers_accepted (sign project data : value) :
  accepted env request project_id sign project data ->
  (validate env data (req_schema env) = None ->
   exists items, data = VDict items /\
                 hashable (default VNone (assoc "method" items)) = true) ->
  exists (calls : list Call) (response : core.Response),
    ApiHandler.post env request project_id = (calls, inr response).
Proof.
  intros Haccepted Hshape.
  destruct (validate env data (req_schema env)) as [message|] eqn:Hvalid.
  - pass_gates. eexists _, _. reflexivity.
  - destruct (Hshape eq_refl) as (items & -> & Hmethod).
    pass_gates. simpl get. pass_gates.
    destruct (default VNone (assoc "method" items)) as [| | |name| |] eqn:Hname;
      try discriminate Hmethod; simpl; rewrite ?bind_ret; simpl;
      try (eexists _, _; reflexivity).
    destruct (admin_params_schema env !! name) as [schema|] eqn:Hlookup.
    + rewrite bool_decide_eq_true_2 by (now exists schema). simpl.
      destruct (validate env _ schema); eexists _, _; reflexivity.
    + rewrite bool_decide_eq_false_2 by (intros [? ?]; discriminate). simpl.
      eexists _, _. reflexivity.
Qed.

End PastTheGates.

(** ** SockjsConnection: the callbacks in sequence *)

Section Callbacks.
Import SockjsConnection Transport.

Lemma on_open_after (self : Connection) (info : value) :
  after (on_open self info) =
    {| session := session self; client := Some {| info := info |} |}.
Proof.
  unfold on_open, set_client. simpl.
  destruct (session self) as [s|]; [destruct (negb _)|]; reflexivity.
Qed.

Lemma on_open_raised (self : Connection) (info : value) :
  raised (on_open self info) =
    match session self with
    | Some _ => None
    | None => Some AttributeError
    end.
Proof.
  unfold on_open, set_client. simpl.
  destruct (session self) as [s|]; [destruct (negb _)|]; reflexivity.
Qed.

Lemma on_open_never_closes (self : Connection) (info : value) (c : Client) :
  ~ In (ClientClose c) (effects (on_open self info)).
Proof.
  unfold on_open. simpl.
  destruct (session self) as [s|]; [destruct (negb _)|]; simpl;
    intuition discriminate.
Qed.

(** Opening always leaves the connection holding a freshly built agent,
    with its session untouched, and closes no agent.  With a session it
    ends normally, and the heartbeat is started exactly when the
    transport is not [rawwebsocket].  Without a session the inherited
    [close] is called, exactly then, and the callback ends in the
    [AttributeError] that call runs into. *)
Theorem on_open_always_binds (self : Connection) (info : value) :
  after (on_open self info) =
    {| session := session self; client := Some {| info := info |} |} /\
  (raised (on_open self info) = None <-> exists s, session self = Some s) /\
  (raised (on_open self info) = Some AttributeError <-> session self = None) /\
  (In StartHeartbeat (effects (on_open self info)) <->
   exists s, session self = Some s /\ transport_name s <> "rawwebsocket") /\
  (In Close (effects (on_open self info)) <-> session self = None) /\
  (forall c, ~ In (ClientClose c) (effects (on_open self info))).
Proof.
  split; [apply on_open_after|].
  rewrite on_open_raised.
  split; [|split; [|split; [|split; [|intros c; apply on_open_never_closes]]]];
    unfold on_open, set_client; simpl;
    destruct (session self) as [s|] eqn:Hsession.
  - split; [intros _; now exists s | reflexivity].
  - split; [discriminate | intros (s & Habsurd); discriminate Habsurd].
  - split; discriminate.
  - split; reflexivity.
  - destruct (String.eqb_spec (transport_name s) "rawwebsocket") as [Hraw|Hraw];
      simpl; split; try (intuition (discriminate || congruence)).
    + intros (s' & [= <-] & Hother). contradiction.
    + intros _. now exists s.
  - simpl. split; [intuition discriminate|].
    intros (s' & Habsurd & _). discriminate Habsurd.
  - destruct (negb _); simpl; split; intuition discriminate.
  - simpl. split; [reflexivity | intros _; right; now left].
Qed.

Lemma play_app (self : Connection) (first rest : list Event) :
  play self (first ++ rest) = play self first ++ play (settle self first) rest.
Proof.
  revert self. induction first as [|e first IH]; intros self; simpl.
  - reflexivity.
  - now rewrite IH.
Qed.

Lemma settle_app (self : Connection) (first rest : list Event) :
  settle self (first ++ rest) = settle (settle self first) rest.
Proof.
  revert self. induction first as [|e first IH]; intros self; simpl.
  - reflexivity.
  - apply IH.
Qed.

Lemma trace_app (runs runs' : list Run) :
  trace (runs ++ runs') = trace runs ++ trace runs'.
Proof. unfold trace. apply flat_map_app. Qed.

Lemma play_messages_runs
    (self : Connection) (c : Client) (messages : list string) :
  client self = Some c ->
  play self (map Message messages) =
    map (fun message =>
           {| effects := [MessageReceived c message];
              after := self; raised := None |}) messages /\
  settle self (map Message messages) = self.
Proof.
  intros Hbound.
  induction messages as [|message messages (IHplay & IHsettle)]; simpl.
  - split; reflexivity.
  - unfold on_message. rewrite Hbound. simpl. now rewrite IHplay, IHsettle.
Qed.

(** On a connection that holds an agent, the messages are handed to that
    agent verbatim and in the order they arrive, no callback fails, and
    the connection is left as it was. *)
Theorem play_messages_in_order
    (self : Connection) (c : Client) (messages : list string) :
  client self = Some c ->
  trace (play self (map Message messages)) = map (MessageReceived c) messages /\
  Forall (fun run => raised run = None) (play self (map Message messages)) /\
  settle self (map Message messages) = self.
Proof.
  intros Hbound.
  destruct (play_messages_runs self c messages Hbound) as (-> & ->).
  repeat split.
  - unfold trace. induction messages as [|message messages IH]; simpl;
      [reflexivity | now rewrite IH].
  - induction messages as [|message messages IH]; simpl; constructor;
      [reflexivity | exact IH].
Qed.

(** A whole life: on a connection that has a session, whatever agent
    it holds, an open, any number of messages and a close run without a
    failure; every message goes, in order, to the agent built at the
    open, that agent is the one closed at the end, and the connection is
    left without an agent. *)
Theorem play_open_messages_close
    (self : Connection) (s : Session) (info : value) (messages : list string) :
  session self = Some s ->
  trace (play self (Opened info :: map Message messages ++ [Closed])) =
    effects (on_open self info)
      ++ map (MessageReceived {| info := info |}) messages
      ++ [ClientClose {| info := info |}] /\
  Forall (fun run => raised run = None)
    (play self (Opened info :: map Message messages ++ [Closed])) /\
  settle self (Opened info :: map Message messages ++ [Closed]) =
    {| session := Some s; client := None |}.
Proof.
  intros Hsession.
  pose proof (on_open_after self info) as Hafter.
  pose proof (on_open_raised self info) as Hraised.
  rewrite Hsession in Hafter, Hraised.
  assert (Hbound : client (after (on_open self info)) = Some {| info := info |})
    by now rewrite Hafter.
  destruct (play_messages_runs _ _ messages Hbound) as (Hplay & Hsettle).
  simpl. rewrite play_app, settle_app, Hsettle, Hplay. simpl.
  unfold on_close. rewrite Hbound. simpl.
  repeat split.
  - unfold trace. simpl. rewrite flat_map_app. simpl. do 2 f_equal.
    clear. induction messages as [|message messages IH]; simpl;
      [reflexivity | now rewrite IH].
  - constructor; [exact Hraised|].
    apply Forall_app. split.
    + clear. induction messages as [|message messages IH]; simpl;
        constructor; [reflexivity | exact IH].
    + constructor; [reflexivity | constructor].
  - now rewrite Hafter.
Qed.

(** A connection without an agent (not opened yet, or closed) stays that
    way until it is opened: every message and every close handed to it
    ends in an [AttributeError], does nothing, and changes nothing. *)
Theorem play_without_client_faults
    (self : Connection) (events : list Event) :
  client self = None ->
  Forall (fun e => is_opened e = false) events ->
  Forall (fun run => effects run = [] /\ raised run = Some AttributeError)
    (play self events) /\
  settle self events = self.
Proof.
  intros Hunbound Hevents.
  induction Hevents as [|e events He _ (IHruns & IHsettle)]; simpl.
  - split; [constructor | reflexivity].
  - assert (Hrun : fire self e =
        {| effects := []; after := self; raised := Some AttributeError |}).
    { destruct e; try discriminate He; simpl;
        unfold on_message, on_close; now rewrite Hunbound. }
    rewrite Hrun. simpl. split; [|exact IHsettle].
    constructor; [split; reflexivity | exact IHruns].
Qed.

(** No callback ever touches the session. *)
Theorem settle_keeps_session (self : Connection) (events : list Event) :
  session (settle self events) = session self.
Proof.
  revert self. induction events as [|e events IH]; intros self; simpl.
  - reflexivity.
  - rewrite IH. destruct e as [info|message|]; simpl.
    + now rewrite on_open_after.
    + unfold on_message. now destruct (client self).
    + unfold on_close. now destruct (client self).
Qed.

(** An agent is closed only by a close event: opening again over an agent
    that is still bound replaces it without closing it. *)
Theorem play_closes_only_on_close
    (self : Connection) (events : list Event) (c : Client) :
  In (ClientClose c) (trace (play self events)) -> In Closed events.
Proof.
  revert self. induction events as [|e events IH]; intros self; simpl.
  - intros [].
  - unfold trace. simpl. rewrite in_app_iff. intros [Hnow | Hlater].
    + destruct e as [info|message'|]; simpl in Hnow.
      * now destruct (on_open_never_closes self info c).
      * unfold on_message in Hnow. destruct (client self); simpl in Hnow;
          intuition discriminate.
      * now left.
    + right. exact (IH _ Hlater).
Qed.

(** A message is only ever handed to an agent of this connection: the one
    it held to begin with, or one built by an open event. *)
Theorem play_delivers_to_own_client
    (self : Connection) (events : list Event) (c : Client) (message : string) :
  In (MessageReceived c message) (trace (play self events)) ->
  client self = Some c \/ In (Opened (SockjsConnection.info c)) events.
Proof.
  revert self. induction events as [|e events IH]; intros self; simpl.
  - intros [].
  - unfold trace. simpl. rewrite in_app_iff. intros [Hnow | Hlater].
    + destruct e as [info|message'|]; simpl in Hnow.
      * unfold on_open in Hnow. simpl in Hnow.
        destruct (session self) as [s|];
          [destruct (negb _)|]; simpl in Hnow; intuition discriminate.
      * unfold on_message in Hnow.
        destruct (client self) as [c'|]; simpl in Hnow; [|contradiction].
        destruct Hnow as [[= -> _] | []]. now left.
      * unfold on_close in Hnow. destruct (client self); simpl in Hnow;
          intuition discriminate.
    + destruct (IH _ Hlater) as [Hbound | Hopened]; [|now right; right].
      destruct e as [info|message'|]; simpl in Hbound.
      * rewrite on_open_after in Hbound. simpl in Hbound.
        injection Hbound as <-. right. now left.
      * unfold on_message in Hbound.
        destruct (client self) eqn:Hclient; simpl in Hbound; left; congruence.
      * unfold on_close in Hbound.
        destruct (client self) eqn:Hclient; simpl in Hbound; congruence.
Qed.

End Callbacks.

(** ** BaseHandler.get_current_user *)

(** The current user is the [user] cookie when it holds something, and
    [None] otherwise: an empty cookie counts as no user, so the result is
    never an empty value, and testing it for truth or against [None]
    comes to the same. *)
Theorem get_current_user_none_or_cookie (self : BaseHandler.RequestHandler) :
  (truthy (BaseHandler.get_secure_cookie self "user") = true ->
   BaseHandler.get_current_user self = BaseHandler.get_secure_cookie self "user") /\
  (truthy (BaseHandler.get_secure_cookie self "user") = false ->
   BaseHandler.get_current_user self = VNone) /\
  (truthy (BaseHandler.get_current_user self) = false <->
   BaseHandler.get_current_user self = VNone).
Proof.
  unfold BaseHandler.get_current_user.
  destruct (truthy (BaseHandler.get_secure_cookie self "user")) eqn:Hcookie;
    simpl; repeat split; try discriminate; try reflexivity; try congruence.
  intros ->. reflexivity.
Qed.

(** ** The further properties on concrete runs *)

Lemma post_response_only_when_accepted_witness :
  exists sign project : value,
    accepted Sample.env (Sample.request "good" "REWIND") "p1" sign project
      (Sample.envelope "rewind").
Proof.
  apply (post_response_only_when_accepted Sample.env
           (Sample.request "good" "REWIND") "p1"
           {| core.uid := VStr "7"; core.method := VStr "rewind";
              core.body := VNone; core.error := VStr "method not found" |}).
  vm_compute. reflexivity.
Defined.

Lemma post_dispatch_only_when_validated_witness :
  exists sign schema : value,
    accepted Sample.env (Sample.request "good" "PUBLISH") "p1" sign
      Sample.project (Sample.envelope "publish") /\
    validate Sample.env (Sample.envelope "publish") (req_schema Sample.env) = None /\
    get (Sample.envelope "publish") "method" = ret (VStr "publish") /\
    get (Sample.envelope "publish") "params"
      = ret (VDict [("channel", VStr "news")]) /\
    getitem (admin_params_schema Sample.env) (VStr "publish") = ret schema /\
    validate Sample.env (VDict [("channel", VStr "news")]) schema = None.
Proof.
  apply (post_dispatch_only_when_validated Sample.env
           (Sample.request "good" "PUBLISH") "p1"
           Sample.project (VStr "publish") (VDict [("channel", VStr "news")])).
  vm_compute. do 7 right. left. reflexivity.
Defined.

Lemma post_response_echoes_envelope_witness :
  get (Sample.envelope "rewind") "uid" = ret (VStr "7") /\
  get (Sample.envelope "rewind") "method" = ret (VStr "rewind").
Proof.
  apply (post_response_echoes_envelope Sample.env
           (Sample.request "good" "REWIND") "p1"
           [ ExtractAuthInfo (Sample.request "good" "REWIND");
             GetProjectById "p1";
             CheckAuth Sample.project (VStr "good") "REWIND";
             DecodeData "REWIND";
             NewResponse;
             Validate (Sample.envelope "rewind")
                      (VList [VStr "method"; VStr "params"]) ]
           {| core.uid := VStr "7"; core.method := VStr "rewind";
              core.body := VNone; core.error := VStr "method not found" |}).
  - vm_compute. reflexivity.
  - reflexivity.
Defined.

Lemma post_params_rejected_witness :
  ApiHandler.post Lenient.env (Sample.request "good" "SILENT") "p1"
    = ([ ExtractAuthInfo (Sample.request "good" "SILENT");
         GetProjectById "p1";
         CheckAuth Sample.project (VStr "good") "SILENT";
         DecodeData "SILENT";
         NewResponse;
         Validate (VDict [ ("uid", VStr "7"); ("method", VStr "publish");
                           ("params", VDict []) ]) VNone;
         Validate (VDict []) (VList [VStr "channel"]) ],
       inr {| core.uid := VStr "7"; core.method := VStr "publish";
              core.body := VNone;
              core.error := VStr "channel is a required property" |}).
Proof.
  apply (post_params_rejected Lenient.env (Sample.request "good" "SILENT") "p1"
           (VStr "good") Sample.project (VList [VStr "channel"])
           [ ("uid", VStr "7"); ("method", VStr "publish"); ("params", VDict []) ]
           "channel is a required property").
  - repeat split; reflexivity.
  - reflexivity.
  - vm_compute. reflexivity.
  - reflexivity.
Defined.

Lemma post_auth_info_not_a_dict_witness :
  ApiHandler.post Lenient.env {| body := "PUBLISH"; arguments := VNone |} "p1"
    = ([ExtractAuthInfo {| body := "PUBLISH"; arguments := VNone |}],
       inl AttributeError).
Proof.
  apply (post_auth_info_not_a_dict Lenient.env
           {| body := "PUBLISH"; arguments := VNone |} "p1").
  - reflexivity.
  - reflexivity.
  - intros items Habsurd. discriminate Habsurd.
Defined.

Lemma post_payload_not_a_dict_witness :
  ApiHandler.post Lenient.env (Sample.request "good" "LIST") "p1"
    = ([ ExtractAuthInfo (Sample.request "good" "LIST");
         GetProjectById "p1";
         CheckAuth Sample.project (VStr "good") "LIST";
         DecodeData "LIST";
         NewResponse;
         Validate (VList [VInt 1]) VNone ],
       inl AttributeError).
Proof.
  apply (post_payload_not_a_dict Lenient.env (Sample.request "good" "LIST") "p1"
           (VStr "good") Sample.project (VList [VInt 1])).
  - repeat split; reflexivity.
  - reflexivity.
  - intros items Habsurd. discriminate Habsurd.
Defined.

Lemma post_unhashable_method_witness :
  ApiHandler.post Lenient.env (Sample.request "good" "NESTED") "p1"
    = ([ ExtractAuthInfo (Sample.request "good" "NESTED");
         GetProjectById "p1";
         CheckAuth Sample.project (VStr "good") "NESTED";
         DecodeData "NESTED";
         NewResponse;
         Validate (VDict [ ("uid", VStr "7");
                           ("method", VList [VStr "publish"]);
                           ("params", VDict [("channel", VStr "news")]) ])
                  VNone ],
       inl TypeError).
Proof.
  apply (post_unhashable_method Lenient.env (Sample.request "good" "NESTED") "p1"
           (VStr "good") Sample.project
           [ ("uid", VStr "7");
             ("method", VList [VStr "publish"]);
             ("params", VDict [("channel", VStr "news")]) ]).
  - repeat split; reflexivity.
  - reflexivity.
  - reflexivity.
Defined.

Lemma post_answers_accepted_witness :
  exists (calls : list Call) (response : core.Response),
    ApiHandler.post Sample.env (Sample.request "good" "PUBLISH") "p1"
      = (calls, inr response).
Proof.
  apply (post_answers_accepted Sample.env (Sample.request "good" "PUBLISH") "p1"
           (VStr "good") Sample.project (Sample.envelope "publish")).
  - repeat split; reflexivity.
  - intros _.
    exists [ ("uid", VStr "7"); ("method", VStr "publish");
             ("params", VDict [("channel", VStr "news")]) ].
    split; reflexivity.
Defined.

Lemma on_open_always_binds_witness :
  let streaming :=
    {| SockjsConnection.session :=
         Some {| SockjsConnection.transport_name := "xhr_streaming" |};
       SockjsConnection.client := None |} in
  let stray :=
    {| SockjsConnection.session := None; SockjsConnection.client := None |} in
  (SockjsConnection.raised (SockjsConnection.on_open streaming VNone) = None /\
   In SockjsConnection.StartHeartbeat
      (SockjsConnection.effects (SockjsConnection.on_open streaming VNone))) /\
  (SockjsConnection.raised (SockjsConnection.on_open stray VNone)
     = Some AttributeError /\
   In SockjsConnection.Close
      (SockjsConnection.effects (SockjsConnection.on_open stray VNone))).
Proof.
  intros streaming stray.
  destruct (on_open_always_binds streaming VNone)
    as (_ & Hquiet & _ & Hbeat & _).
  destruct (on_open_always_binds stray VNone)
    as (_ & _ & Hfails & _ & Hcloses & _).
  split; split.
  - apply Hquiet. now eexists.
  - apply Hbeat. eexists. split; [reflexivity | discriminate].
  - apply Hfails. reflexivity.
  - apply Hcloses. reflexivity.
Defined.

Lemma play_messages_in_order_witness :
  let c := {| SockjsConnection.info := VStr "alice" |} in
  let self :=
    {| SockjsConnection.session :=
         Some {| SockjsConnection.transport_name := "websocket" |};
       SockjsConnection.client := Some c |} in
  Transport.trace
    (Transport.play self [Transport.Message "one"; Transport.Message "two"])
    = [ SockjsConnection.MessageReceived c "one";
        SockjsConnection.MessageReceived c "two" ].
Proof.
  intros c self.
  apply (play_messages_in_order self c ["one"; "two"]).
  reflexivity.
Defined.

Lemma play_without_client_faults_witness :
  let self :=
    {| SockjsConnection.session :=
         Some {| SockjsConnection.transport_name := "websocket" |};
       SockjsConnection.client := None |} in
  Transport.settle self
    [Transport.Message "early"; Transport.Closed; Transport.Message "late"]
    = self.
Proof.
  intros self.
  apply (play_without_client_faults self
           [Transport.Message "early"; Transport.Closed; Transport.Message "late"]).
  - reflexivity.
  - repeat constructor.
Defined.

Lemma play_closes_only_on_close_witness :
  In Transport.Closed
     [Transport.Opened (VStr "alice"); Transport.Opened (VStr "bob");
      Transport.Closed].
Proof.
  apply (play_closes_only_on_close
           {| SockjsConnection.session := None; SockjsConnection.client := None |}
           [Transport.Opened (VStr "alice"); Transport.Opened (VStr "bob");
            Transport.Closed]
           {| SockjsConnection.info := VStr "bob" |}).
  vm_compute. do 4 right. left. reflexivity.
Defined.

Lemma play_delivers_to_own_client_witness :
  SockjsConnection.client
    {| SockjsConnection.session := None; SockjsConnection.client := None |}
    = Some {| SockjsConnection.info := VStr "bob" |} \/
  In (Transport.Opened (VStr "bob"))
     [Transport.Opened (VStr "alice"); Transport.Opened (VStr "bob");
      Transport.Message "hello"].
Proof.
  apply (play_delivers_to_own_client
           {| SockjsConnection.session := None; SockjsConnection.client := None |}
           [Transport.Opened (VStr "alice"); Transport.Opened (VStr "bob");
            Transport.Message "hello"]
           {| SockjsConnection.info := VStr "bob" |} "hello").
  vm_compute. do 4 right. left. reflexivity.
Defined.

Lemma get_current_user_none_or_cookie_witness :
  BaseHandler.get_current_user
    {| BaseHandler.secure_cookies := [("lang", VStr "en"); ("user", VStr "")] |}
    = VNone.
Proof.
  apply (get_current_user_none_or_cookie
           {| BaseHandler.secure_cookies := [("lang", VStr "en"); ("user", VStr "")] |}).
  reflexivity.
Defined.

Lemma play_open_messages_close_witness :
  let websocket := {| SockjsConnection.transport_name := "websocket" |} in
  let self :=
    {| SockjsConnection.session := Some websocket;
       SockjsConnection.client := None |} in
  let alice := {| SockjsConnection.info := VStr "alice" |} in
  Transport.trace
    (Transport.play self
       (Transport.Opened (VStr "alice")
          :: map Transport.Message ["one"; "two"] ++ [Transport.Closed]))
    = [ SockjsConnection.ClientCreated alice;
        SockjsConnection.StartHeartbeat;
        SockjsConnection.MessageReceived alice "one";
        SockjsConnection.MessageReceived alice "two";
        SockjsConnection.ClientClose alice ].
Proof.
  intros websocket self alice.
  apply (play_open_messages_close self websocket (VStr "alice") ["one"; "two"]).
  reflexivity.
Defined.


